(** * A ticket machine as a state pattern: model of [13.2/main.go]

    The Go program keeps one [TicketMachine] record and dispatches each of
    its four commands to the method of the current [State] value.  The five
    state structs are empty, so a state is a tag; the interface [State] is
    a record of methods, one instance per tag.  Money is [float64]
    (binary64, as Rocq's primitive floats), counts are Go [int] (64 bits
    on the usual targets, wrapping), the two tables are Go maps whose
    lookup of an absent key yields the zero value.  Machines come from
    [NewTicketMachine], which sets a state and allocates both maps, so the
    model has no nil interface and no nil map. *)

From Stdlib Require Import ZArith List Floats.
From stdpp Require Import gmap strings.
Import ListNotations.

Local Open Scope Z_scope.
Local Open Scope string_scope.
Local Open Scope list_scope.

(** ** Go scalars *)

Module GoInt.

Definition min_int : Z := - 2 ^ 63.
Definition max_int : Z := 2 ^ 63 - 1.

(** Two's complement reduction of a mathematical integer to an [int]. *)
Definition wrap (z : Z) : Z := (z + 2 ^ 63) mod 2 ^ 64 - 2 ^ 63.

Definition in_range (z : Z) : Prop := min_int <= z <= max_int.

(** [x--] *)
Definition dec (z : Z) : Z := wrap (z - 1).

End GoInt.

(** An [error] value is [nil] or carries the text given to [errors.New]. *)
Definition error : Type := option string.
Definition nil_error : error := None.
Definition errors_New (msg : string) : error := Some msg.

(** ** The machine *)

Inductive StateTag : Type :=
  | IdleState
  | WaitingForMoneyState
  | MoneyReceivedState
  | TicketDispensedState
  | TransactionCanceledState.

Record TicketMachine : Type := mkTicketMachine {
  State : StateTag;
  CurrentTicket : string;
  CurrentPrice : float;
  InsertedMoney : float;
  Inventory : gmap string Z;
  TicketPrices : gmap string float
}.

(** What a method printed, one entry per [fmt.Printf]/[fmt.Println] call,
    with the arguments of the format instead of the formatted text. *)
Inductive Line : Type :=
  | TicketSelectedLine (ticketType : string) (price : float)
  | InsertedLine (amount total : float)
  | SufficientFundsLine
  | AdditionalFundsLine (amount : float)
  | TicketDispensedLine.

(** Outcome of one method call on [*TicketMachine]: the machine after the
    call, the returned [error], and the lines printed. *)
Record Outcome : Type := mkOutcome {
  machine : TicketMachine;
  err : error;
  printed : list Line
}.

(** Reading a Go map: the zero value stands for an absent key. *)
Definition inventory_at (inv : gmap string Z) (k : string) : Z :=
  default 0 (inv !! k).

Definition price_at (prices : gmap string float) (k : string) : float :=
  default 0%float (prices !! k).

Definition SetState (m : TicketMachine) (s : StateTag) : TicketMachine :=
  mkTicketMachine s (CurrentTicket m) (CurrentPrice m) (InsertedMoney m)
                  (Inventory m) (TicketPrices m).

Definition GetTicketPrice (m : TicketMachine) (ticketType : string) : float :=
  price_at (TicketPrices m) ticketType.

Definition HasTicket (m : TicketMachine) (ticketType : string) : bool :=
  (0 <? inventory_at (Inventory m) ticketType)%Z.

Definition NewTicketMachine : TicketMachine :=
  {| State := IdleState;
     CurrentTicket := "";
     CurrentPrice := 0%float;
     InsertedMoney := 0%float;
     Inventory := <["metro" := 10]> (<["bus" := 15]> (<["train" := 5]> ∅));
     TicketPrices :=
       <["metro" := 300%float]>
         (<["bus" := 250%float]> (<["train" := 1000%float]> ∅)) |}.

(** Field updates written by the methods. *)
Definition set_CurrentTicket (m : TicketMachine) (t : string) : TicketMachine :=
  mkTicketMachine (State m) t (CurrentPrice m) (InsertedMoney m)
                  (Inventory m) (TicketPrices m).

Definition set_CurrentPrice (m : TicketMachine) (p : float) : TicketMachine :=
  mkTicketMachine (State m) (CurrentTicket m) p (InsertedMoney m)
                  (Inventory m) (TicketPrices m).

Definition set_InsertedMoney (m : TicketMachine) (x : float) : TicketMachine :=
  mkTicketMachine (State m) (CurrentTicket m) (CurrentPrice m) x
                  (Inventory m) (TicketPrices m).

(** [m.Inventory[k]--]: reads the entry (zero when absent) and stores the
    decremented [int] under [k]. *)
Definition dec_Inventory (m : TicketMachine) (k : string) : TicketMachine :=
  mkTicketMachine (State m) (CurrentTicket m) (CurrentPrice m) (InsertedMoney m)
                  (<[k := GoInt.dec (inventory_at (Inventory m) k)]> (Inventory m))
                  (TicketPrices m).

Definition fails (m : TicketMachine) (msg : string) : Outcome :=
  mkOutcome m (errors_New msg) [].

(** ** The five implementations of [State] *)

Module Idle.

Definition SelectTicket (m : TicketMachine) (ticketType : string) : Outcome :=
  if negb (HasTicket m ticketType) then fails m "ticket unavailable"
  else
    let m1 := set_CurrentTicket m ticketType in
    let m2 := set_CurrentPrice m1 (GetTicketPrice m1 ticketType) in
    let m3 := SetState m2 WaitingForMoneyState in
    mkOutcome m3 nil_error [TicketSelectedLine ticketType (CurrentPrice m3)].

Definition InsertMoney (m : TicketMachine) (amount : float) : Outcome :=
  fails m "please select a ticket first".

Definition Cancel (m : TicketMachine) : Outcome :=
  fails m "no active transaction".

Definition DispenseTicket (m : TicketMachine) : Outcome :=
  fails m "no paid ticket".

Definition Name : string := "Idle".

End Idle.

Module WaitingForMoney.

Definition SelectTicket (m : TicketMachine) (ticketType : string) : Outcome :=
  fails m "ticket already selected".

Definition InsertMoney (m : TicketMachine) (amount : float) : Outcome :=
  let m1 := set_InsertedMoney m (InsertedMoney m + amount)%float in
  let line := InsertedLine amount (InsertedMoney m1) in
  if PrimFloat.leb (CurrentPrice m1) (InsertedMoney m1)
  then mkOutcome (SetState m1 MoneyReceivedState) nil_error
                 [line; SufficientFundsLine]
  else mkOutcome m1 nil_error [line].

Definition Cancel (m : TicketMachine) : Outcome :=
  mkOutcome (SetState m TransactionCanceledState) nil_error [].

Definition DispenseTicket (m : TicketMachine) : Outcome :=
  fails m "insufficient funds".

Definition Name : string := "WaitingForMoney".

End WaitingForMoney.

Module MoneyReceived.

Definition SelectTicket (m : TicketMachine) (ticketType : string) : Outcome :=
  fails m "ticket already selected".

Definition InsertMoney (m : TicketMachine) (amount : float) : Outcome :=
  let m1 := set_InsertedMoney m (InsertedMoney m + amount)%float in
  mkOutcome m1 nil_error [AdditionalFundsLine amount].

Definition Cancel (m : TicketMachine) : Outcome :=
  mkOutcome (SetState m TransactionCanceledState) nil_error [].

Definition DispenseTicket (m : TicketMachine) : Outcome :=
  let m1 := SetState m TicketDispensedState in
  let m2 := dec_Inventory m1 (CurrentTicket m1) in
  let m3 := set_InsertedMoney m2 0%float in
  let m4 := set_CurrentTicket m3 "" in
  mkOutcome m4 nil_error [TicketDispensedLine].

Definition Name : string := "MoneyReceived".

End MoneyReceived.

Module TicketDispensed.

Definition SelectTicket (m : TicketMachine) (ticketType : string) : Outcome :=
  fails m "please take your ticket and start over".

Definition InsertMoney (m : TicketMachine) (amount : float) : Outcome :=
  fails m "please take your ticket".

Definition Cancel (m : TicketMachine) : Outcome :=
  fails m "transaction complete".

Definition DispenseTicket (m : TicketMachine) : Outcome :=
  fails m "ticket already dispensed".

Definition Name : string := "TicketDispensed".

End TicketDispensed.

Module TransactionCanceled.

Definition SelectTicket (m : TicketMachine) (ticketType : string) : Outcome :=
  fails m "transaction canceled. Please start over".

Definition InsertMoney (m : TicketMachine) (amount : float) : Outcome :=
  fails m "transaction canceled".

Definition Cancel (m : TicketMachine) : Outcome :=
  fails m "already canceled".

Definition DispenseTicket (m : TicketMachine) : Outcome :=
  fails m "no ticket".

Definition Name : string := "TransactionCanceled".

End TransactionCanceled.

(** ** The interface and its dispatch *)

Record StateMethods : Type := mkStateMethods {
  st_SelectTicket : TicketMachine -> string -> Outcome;
  st_InsertMoney : TicketMachine -> float -> Outcome;
  st_Cancel : TicketMachine -> Outcome;
  st_DispenseTicket : TicketMachine -> Outcome;
  st_Name : string
}.

Definition methods (s : StateTag) : StateMethods :=
  match s with
  | IdleState =>
      mkStateMethods Idle.SelectTicket Idle.InsertMoney Idle.Cancel
                     Idle.DispenseTicket Idle.Name
  | WaitingForMoneyState =>
      mkStateMethods WaitingForMoney.SelectTicket WaitingForMoney.InsertMoney
                     WaitingForMoney.Cancel WaitingForMoney.DispenseTicket
                     WaitingForMoney.Name
  | MoneyReceivedState =>
      mkStateMethods MoneyReceived.SelectTicket MoneyReceived.InsertMoney
                     MoneyReceived.Cancel MoneyReceived.DispenseTicket
                     MoneyReceived.Name
  | TicketDispensedState =>
      mkStateMethods TicketDispensed.SelectTicket TicketDispensed.InsertMoney
                     TicketDispensed.Cancel TicketDispensed.DispenseTicket
                     TicketDispensed.Name
  | TransactionCanceledState =>
      mkStateMethods TransactionCanceled.SelectTicket
                     TransactionCanceled.InsertMoney TransactionCanceled.Cancel
                     TransactionCanceled.DispenseTicket TransactionCanceled.Name
  end.

Definition GetCurrentState (m : TicketMachine) : string :=
  st_Name (methods (State m)).

Definition SelectTicket (m : TicketMachine) (ticketType : string) : Outcome :=
  st_SelectTicket (methods (State m)) m ticketType.

Definition InsertMoney (m : TicketMachine) (amount : float) : Outcome :=
  st_InsertMoney (methods (State m)) m amount.

Definition Cancel (m : TicketMachine) : Outcome :=
  st_Cancel (methods (State m)) m.

Definition DispenseTicket (m : TicketMachine) : Outcome :=
  st_DispenseTicket (methods (State m)) m.

(** ** Sequences of calls *)

Inductive Call : Type :=
  | CallSelectTicket (ticketType : string)
  | CallInsertMoney (amount : float)
  | CallCancel
  | CallDispenseTicket.

Definition call (c : Call) (m : TicketMachine) : Outcome :=
  match c with
  | CallSelectTicket t => SelectTicket m t
  | CallInsertMoney a => InsertMoney m a
  | CallCancel => Cancel m
  | CallDispenseTicket => DispenseTicket m
  end.

(** The machine after a caller has issued [cs] one after the other, going
    on whatever each call returned (as [main] does). *)
Definition run (cs : list Call) (m : TicketMachine) : TicketMachine :=
  fold_left (fun acc c => machine (call c acc)) cs m.

(** What the caller saw: each call paired with the [error] it returned. *)
Fixpoint log (cs : list Call) (m : TicketMachine) : list (Call * error) :=
  match cs with
  | [] => []
  | c :: cs' => (c, err (call c m)) :: log cs' (machine (call c m))
  end.

Definition errs (cs : list Call) (m : TicketMachine) : list error :=
  map snd (log cs m).

(** Ticket types of the [SelectTicket] calls of a log that returned [nil]. *)
Definition selected (l : list (Call * error)) : list string :=
  flat_map (fun ce => match ce with
                      | (CallSelectTicket t, None) => [t]
                      | _ => []
                      end) l.

(** Number of [DispenseTicket] calls of a log that returned [nil]. *)
Definition dispensed (l : list (Call * error)) : nat :=
  length (List.filter (fun ce => match ce with
                            | (CallDispenseTicket, None) => true
                            | _ => false
                            end) l).

Definition reachable (m : TicketMachine) : Prop :=
  exists cs, m = run cs NewTicketMachine.

(** [m.Inventory[p]] *)
Definition stock (m : TicketMachine) (p : string) : Z :=
  inventory_at (Inventory m) p.

(** The spec's names for the errors, as the texts the source passes to
    [errors.New] in the places the spec's table assigns them. *)
Module ErrorKind.

Definition ProductUnavailable : string := "ticket unavailable".
Definition NoSelection : string := "please select a ticket first".
Definition NoActiveTransaction : string := "no active transaction".
Definition NoPaidProduct : string := "no paid ticket".
Definition AlreadySelected : string := "ticket already selected".
Definition InsufficientFunds : string := "insufficient funds".
Definition TransactionComplete : string := "transaction complete".
Definition AlreadyDispensed : string := "ticket already dispensed".
Definition TransactionCanceled : string := "transaction canceled".
Definition AlreadyCanceled : string := "already canceled".
Definition NoProductToDispense : string := "no ticket".

End ErrorKind.

(** What holds of a machine [m] that was started as [m0] and has so far
    shown its caller the log [l]: the inventory is that of [m0] until the
    one ticket of the transaction is dispensed, and the log holds as many
    successful selections and dispenses as the state tells. *)
Definition Invariant (m0 : TicketMachine) (l : list (Call * error))
    (m : TicketMachine) : Prop :=
  match State m with
  | IdleState =>
      selected l = [] /\ dispensed l = 0%nat /\ Inventory m = Inventory m0
  | WaitingForMoneyState | MoneyReceivedState =>
      selected l = [CurrentTicket m] /\ dispensed l = 0%nat /\
      Inventory m = Inventory m0 /\ 0 < stock m0 (CurrentTicket m)
  | TransactionCanceledState =>
      (exists t, selected l = [t]) /\ dispensed l = 0%nat /\
      Inventory m = Inventory m0
  | TicketDispensedState =>
      dispensed l = 1%nat /\
      exists t, selected l = [t] /\ 0 < stock m0 t /\
                stock m t = stock m0 t - 1 /\
                forall p, p <> t -> stock m p = stock m0 p
  end.

(** How far a transaction has come; the two final states are equally far. *)
Definition stage (s : StateTag) : nat :=
  match s with
  | IdleState => 0
  | WaitingForMoneyState => 1
  | MoneyReceivedState => 2
  | TicketDispensedState | TransactionCanceledState => 3
  end.

(** [x += a] for each [a] of [amounts] in turn. *)
Definition add_all (x : float) (amounts : list float) : float :=
  fold_left PrimFloat.add amounts x.

(** ** The demo driver [main] *)

(** Standard output of [main]: its own [fmt.Println] and [fmt.Printf]
    calls and, between them, the lines the methods print. *)
Inductive Stdout : Type :=
  | Println (text : string)
  | ByMethod (l : Line)
  | StateIs (name : string).

(** The variable [machine] of [main], what has been printed, and the
    errors the statements of [main] received and dropped. *)
Record Driver : Type := mkDriver {
  d_machine : TicketMachine;
  d_stdout : list Stdout;
  d_dropped : list error
}.

(** A statement [machine.F(...)]: the result is not looked at. *)
Definition do_call (c : Call) (d : Driver) : Driver :=
  let r := call c (d_machine d) in
  mkDriver (machine r) (d_stdout d ++ map ByMethod (printed r))
           (d_dropped d ++ [err r]).

Definition do_Println (text : string) (d : Driver) : Driver :=
  mkDriver (d_machine d) (d_stdout d ++ [Println text]) (d_dropped d).

(** [machine = NewTicketMachine()] *)
Definition do_new (d : Driver) : Driver :=
  mkDriver NewTicketMachine (d_stdout d) (d_dropped d).

(** [fmt.Printf("State: %s\n", machine.GetCurrentState())] *)
Definition do_print_state (d : Driver) : Driver :=
  mkDriver (d_machine d)
           (d_stdout d ++ [StateIs (GetCurrentState (d_machine d))])
           (d_dropped d).

(** A heading that starts with a line feed, as the second and third do. *)
Definition after_newline (s : string) : string := String (Ascii.ascii_of_nat 10) s.

Definition main : Driver :=
  let d := mkDriver NewTicketMachine [] [] in
  let d := do_Println "--- Successful Purchase ---" d in
  let d := do_call (CallSelectTicket "metro") d in
  let d := do_call (CallInsertMoney 300%float) d in
  let d := do_call CallDispenseTicket d in
  let d := do_Println (after_newline "--- Cancellation Before Payment ---") d in
  let d := do_new d in
  let d := do_call (CallSelectTicket "bus") d in
  let d := do_call CallCancel d in
  let d := do_print_state d in
  let d := do_Println (after_newline "--- Cancellation After Payment ---") d in
  let d := do_new d in
  let d := do_call (CallSelectTicket "train") d in
  let d := do_call (CallInsertMoney 1000%float) d in
  let d := do_call CallCancel d in
  do_print_state d.

(** * Properties *)

(** ** One call *)

Ltac unfold_methods :=
  unfold call, SelectTicket, InsertMoney, Cancel, DispenseTicket,
         GetCurrentState, methods, st_SelectTicket, st_InsertMoney, st_Cancel,
         st_DispenseTicket, st_Name,
         Idle.SelectTicket, Idle.InsertMoney, Idle.Cancel, Idle.DispenseTicket,
         WaitingForMoney.SelectTicket, WaitingForMoney.InsertMoney,
         WaitingForMoney.Cancel, WaitingForMoney.DispenseTicket,
         MoneyReceived.SelectTicket, MoneyReceived.InsertMoney,
         MoneyReceived.Cancel, MoneyReceived.DispenseTicket,
         TicketDispensed.SelectTicket, TicketDispensed.InsertMoney,
         TicketDispensed.Cancel, TicketDispensed.DispenseTicket,
         TransactionCanceled.SelectTicket, TransactionCanceled.InsertMoney,
         TransactionCanceled.Cancel, TransactionCanceled.DispenseTicket,
         fails, errors_New, nil_error in *.

(** Split on the dynamic type behind [m.State]. *)
Ltac by_state m :=
  let s := fresh "s" in
  destruct m as [s ? ? ? ? ?]; destruct s; unfold_methods; cbn in *.

Lemma wrap_in_range (z : Z) : GoInt.in_range z -> GoInt.wrap z = z.
Proof.
  unfold GoInt.in_range, GoInt.min_int, GoInt.max_int, GoInt.wrap.
  intros Hz. rewrite Z.mod_small; lia.
Qed.

Lemma dec_exact (z : Z) :
  GoInt.min_int < z <= GoInt.max_int -> GoInt.dec z = z - 1.
Proof.
  intros Hz. unfold GoInt.dec. apply wrap_in_range.
  unfold GoInt.in_range. lia.
Qed.

Lemma stock_dec_same (m : TicketMachine) (k : string) :
  stock (dec_Inventory m k) k = GoInt.dec (stock m k).
Proof. unfold stock, inventory_at, dec_Inventory. cbn. by rewrite lookup_insert_eq. Qed.

Lemma stock_dec_other (m : TicketMachine) (k p : string) :
  p <> k -> stock (dec_Inventory m k) p = stock m p.
Proof.
  intros Hne. unfold stock, inventory_at, dec_Inventory. cbn.
  by rewrite lookup_insert_ne.
Qed.

(** A call that returns an error has touched nothing and printed nothing. *)
Lemma call_error_frame (m : TicketMachine) (c : Call) :
  err (call c m) <> nil_error ->
  machine (call c m) = m /\ printed (call c m) = [].
Proof.
  destruct c; by_state m; try (intros; split; reflexivity); try congruence.
  - destruct (HasTicket _ _); cbn; [congruence | auto].
  - destruct (PrimFloat.leb _ _); cbn; congruence.
Qed.

(** Every method of the two final states is a bare [errors.New]. *)
Lemma final_call (m : TicketMachine) (c : Call) :
  State m = TicketDispensedState \/ State m = TransactionCanceledState ->
  exists msg, call c m = fails m msg.
Proof.
  intros [H | H]; destruct c; by_state m; try discriminate; eauto.
Qed.

Lemma final_run (m : TicketMachine) (cs : list Call) :
  State m = TicketDispensedState \/ State m = TransactionCanceledState ->
  run cs m = m.
Proof.
  intros H. induction cs as [| c cs IH]; [reflexivity |].
  unfold run in *. cbn. destruct (final_call m c H) as [msg ->]. exact IH.
Qed.

Lemma final_log (m : TicketMachine) (cs : list Call) :
  State m = TicketDispensedState \/ State m = TransactionCanceledState ->
  Forall (fun e => e <> nil_error) (errs cs m).
Proof.
  intros H. unfold errs. induction cs as [| c cs IH]; cbn; [constructor |].
  destruct (final_call m c H) as [msg ->]. cbn. constructor; [discriminate | exact IH].
Qed.

(** ** Errors leave the machine alone *)

(** C2. For every machine reachable from [NewTicketMachine] and each of the
    four calls, a call that returns an error leaves the machine exactly as
    it was: same state, ticket, price, inserted money, inventory and price
    table. *)
Theorem error_leaves_machine_unchanged (m : TicketMachine) (c : Call) :
  reachable m ->
  err (call c m) <> nil_error ->
  machine (call c m) = m /\
  InsertedMoney (machine (call c m)) = InsertedMoney m /\
  Inventory (machine (call c m)) = Inventory m /\
  State (machine (call c m)) = State m /\
  CurrentTicket (machine (call c m)) = CurrentTicket m /\
  CurrentPrice (machine (call c m)) = CurrentPrice m.
Proof.
  intros _ Herr. destruct (call_error_frame m c Herr) as [-> _].
  repeat split.
Qed.

Lemma error_leaves_machine_unchanged_witness :
  let m := run [CallSelectTicket "metro"; CallInsertMoney 100%float]
               NewTicketMachine in
  err (call CallDispenseTicket m) = Some ErrorKind.InsufficientFunds /\
  machine (call CallDispenseTicket m) = m.
Proof.
  intros m. split; [reflexivity |].
  apply (error_leaves_machine_unchanged m CallDispenseTicket).
  - exists [CallSelectTicket "metro"; CallInsertMoney 100%float]. reflexivity.
  - vm_compute. discriminate.
Defined.

(** ** The two final states *)

(** C4. [TicketDispensedState] and [TransactionCanceledState] absorb: there
    every call returns an error and leaves the machine as it is, so no
    sequence of calls changes the state; and cancelling twice from
    [WaitingForMoneyState] or [MoneyReceivedState] returns [nil] and then
    "already canceled", the state being [TransactionCanceledState] after
    each of the two calls. *)
Theorem final_states_absorb :
  (forall m c,
     State m = TicketDispensedState \/ State m = TransactionCanceledState ->
     err (call c m) <> nil_error /\ machine (call c m) = m) /\
  (forall m cs,
     State m = TicketDispensedState \/ State m = TransactionCanceledState ->
     State (run cs m) = State m /\
     Forall (fun e => e <> nil_error) (errs cs m)) /\
  (forall m,
     State m = WaitingForMoneyState \/ State m = MoneyReceivedState ->
     errs [CallCancel; CallCancel] m
       = [nil_error; Some ErrorKind.AlreadyCanceled] /\
     State (run [CallCancel] m) = TransactionCanceledState /\
     State (run [CallCancel; CallCancel] m) = TransactionCanceledState).
Proof.
  split; [| split].
  - intros m c H. destruct (final_call m c H) as [msg ->].
    split; [discriminate | reflexivity].
  - intros m cs H. split; [by rewrite final_run | by apply final_log].
  - intros m [H | H]; by_state m; try discriminate; auto.
Qed.

Lemma final_states_absorb_witness :
  let m := run [CallSelectTicket "bus"; CallCancel] NewTicketMachine in
  State m = TransactionCanceledState /\
  machine (call (CallSelectTicket "bus") m) = m.
Proof.
  intros m. split; [reflexivity |].
  apply (proj1 final_states_absorb m (CallSelectTicket "bus")).
  right. reflexivity.
Defined.

(** ** Paying *)

(** C5. In [WaitingForMoneyState], [InsertMoney] returns [nil] for every
    amount, of any sign, and adds it to [InsertedMoney]; the state becomes
    [MoneyReceivedState] exactly when the new total is [>=] the price and
    stays [WaitingForMoneyState] otherwise; nothing else changes.  After
    selecting "metro" (price 300), inserting 100 stays waiting and a
    further 250 (total 350) reaches [MoneyReceivedState]. *)
Theorem waiting_InsertMoney :
  (forall m amount,
     State m = WaitingForMoneyState ->
     let r := InsertMoney m amount in
     let total := (InsertedMoney m + amount)%float in
     err r = nil_error /\
     InsertedMoney (machine r) = total /\
     State (machine r)
       = (if PrimFloat.leb (CurrentPrice m) total
          then MoneyReceivedState else WaitingForMoneyState) /\
     (State (machine r) = MoneyReceivedState <->
        PrimFloat.leb (CurrentPrice m) total = true) /\
     CurrentTicket (machine r) = CurrentTicket m /\
     CurrentPrice (machine r) = CurrentPrice m /\
     Inventory (machine r) = Inventory m /\
     TicketPrices (machine r) = TicketPrices m) /\
  (let m1 := run [CallSelectTicket "metro"] NewTicketMachine in
   let m2 := run [CallInsertMoney 100%float] m1 in
   let m3 := run [CallInsertMoney 250%float] m2 in
   errs [CallSelectTicket "metro"; CallInsertMoney 100%float;
         CallInsertMoney 250%float] NewTicketMachine
     = [nil_error; nil_error; nil_error] /\
   State m1 = WaitingForMoneyState /\ CurrentPrice m1 = 300%float /\
   State m2 = WaitingForMoneyState /\ InsertedMoney m2 = 100%float /\
   State m3 = MoneyReceivedState /\ InsertedMoney m3 = 350%float).
Proof.
  split.
  - intros m amount H. by_state m; try discriminate.
    destruct (PrimFloat.leb _ _) eqn:E; cbn; repeat split; auto; discriminate.
  - vm_compute. repeat split.
Qed.

Lemma waiting_InsertMoney_witness :
  let m := run [CallSelectTicket "train"] NewTicketMachine in
  State m = WaitingForMoneyState /\
  err (InsertMoney m (-5)%float) = nil_error /\
  InsertedMoney (machine (InsertMoney m (-5)%float)) = (0 + -5)%float.
Proof.
  intros m.
  assert (H : State m = WaitingForMoneyState) by reflexivity.
  split; [exact H |].
  destruct (proj1 waiting_InsertMoney m (-5)%float H) as (He & Ht & _).
  split; [exact He | exact Ht].
Defined.

(** ** Cancelling *)

(** C8. In [WaitingForMoneyState] and in [MoneyReceivedState], [Cancel]
    returns [nil], sets the state to [TransactionCanceledState] and writes
    no other field: [InsertedMoney] keeps its value, and so do the
    inventory, the selected ticket and its price.  After selecting "train"
    and inserting 1000 the machine is in [MoneyReceivedState], and
    cancelling then gives [TransactionCanceledState] with 5 trains still in
    stock. *)
Theorem Cancel_only_changes_state :
  (forall m,
     State m = WaitingForMoneyState \/ State m = MoneyReceivedState ->
     let r := Cancel m in
     err r = nil_error /\
     State (machine r) = TransactionCanceledState /\
     InsertedMoney (machine r) = InsertedMoney m /\
     Inventory (machine r) = Inventory m /\
     CurrentTicket (machine r) = CurrentTicket m /\
     CurrentPrice (machine r) = CurrentPrice m /\
     TicketPrices (machine r) = TicketPrices m) /\
  (let m2 := run [CallSelectTicket "train"; CallInsertMoney 1000%float]
                 NewTicketMachine in
   let m3 := run [CallCancel] m2 in
   errs [CallSelectTicket "train"; CallInsertMoney 1000%float; CallCancel]
        NewTicketMachine = [nil_error; nil_error; nil_error] /\
   State m2 = MoneyReceivedState /\
   State m3 = TransactionCanceledState /\
   InsertedMoney m3 = 1000%float /\
   stock NewTicketMachine "train" = 5 /\ stock m3 "train" = 5).
Proof.
  split.
  - intros m [H | H]; by_state m; try discriminate; repeat split.
  - vm_compute. repeat split.
Qed.

Lemma Cancel_only_changes_state_witness :
  let m := run [CallSelectTicket "metro"; CallInsertMoney 120%float]
               NewTicketMachine in
  State m = WaitingForMoneyState /\
  State (machine (Cancel m)) = TransactionCanceledState /\
  InsertedMoney (machine (Cancel m)) = 120%float.
Proof.
  intros m.
  assert (H : State m = WaitingForMoneyState) by reflexivity.
  split; [exact H |].
  destruct (proj1 Cancel_only_changes_state m (or_introl H))
    as (_ & Hs & Hi & _).
  split; [exact Hs | exact Hi].
Defined.

(** ** Sequences of calls *)

Lemma run_snoc (cs : list Call) (c : Call) (m : TicketMachine) :
  run (cs ++ [c]) m = machine (call c (run cs m)).
Proof. unfold run. by rewrite fold_left_app. Qed.

Lemma run_app (cs cs' : list Call) (m : TicketMachine) :
  run (cs ++ cs') m = run cs' (run cs m).
Proof. unfold run. by rewrite fold_left_app. Qed.

Lemma log_snoc (cs : list Call) (c : Call) (m : TicketMachine) :
  log (cs ++ [c]) m = log cs m ++ [(c, err (call c (run cs m)))].
Proof.
  revert m. induction cs as [| c0 cs IH]; intros m; cbn; [reflexivity |].
  by rewrite IH.
Qed.

Lemma selected_snoc (l : list (Call * error)) (c : Call) (e : error) :
  selected (l ++ [(c, e)])
  = selected l ++ match c, e with
                  | CallSelectTicket t, None => [t]
                  | _, _ => []
                  end.
Proof.
  unfold selected. rewrite flat_map_app. cbn. rewrite app_nil_r.
  destruct c, e; reflexivity.
Qed.

Lemma dispensed_snoc (l : list (Call * error)) (c : Call) (e : error) :
  dispensed (l ++ [(c, e)])
  = (dispensed l + match c, e with
                   | CallDispenseTicket, None => 1
                   | _, _ => 0
                   end)%nat.
Proof.
  unfold dispensed. rewrite List.filter_app, length_app. cbn.
  destruct c, e; reflexivity.
Qed.

(** What one call can do to an inventory entry: nothing, unless it is the
    dispense of [MoneyReceivedState] and the entry is that of the selected
    ticket. *)
Lemma call_stock (m : TicketMachine) (c : Call) (p : string) :
  stock (machine (call c m)) p = stock m p \/
  (c = CallDispenseTicket /\ State m = MoneyReceivedState /\
   p = CurrentTicket m /\ err (call c m) = nil_error /\
   stock (machine (call c m)) p = GoInt.dec (stock m p)).
Proof.
  destruct c; by_state m; auto.
  - destruct (negb _); auto.
  - destruct (PrimFloat.leb _ _); auto.
  - destruct (decide (p = CurrentTicket0)) as [-> | Hne].
    + right. repeat split. unfold stock, inventory_at. cbn.
      by rewrite lookup_insert_eq.
    + left. unfold stock, inventory_at. cbn. by rewrite lookup_insert_ne.
Qed.

(** Only [DispenseTicket] writes to the inventory map. *)
Lemma call_Inventory (m : TicketMachine) (c : Call) :
  c <> CallDispenseTicket -> Inventory (machine (call c m)) = Inventory m.
Proof.
  destruct c; by_state m; try congruence; auto.
  - destruct (negb _); auto.
  - destruct (PrimFloat.leb _ _); auto.
Qed.

(** [SelectTicket] returns [nil] only for a ticket that [HasTicket] finds. *)
Lemma SelectTicket_ok (m : TicketMachine) (t : string) :
  err (SelectTicket m t) = nil_error ->
  State m = IdleState /\ 0 < stock m t.
Proof.
  by_state m; try discriminate.
  unfold HasTicket, stock. cbn.
  destruct (0 <? inventory_at Inventory0 t)%Z eqn:E; cbn; [| discriminate].
  intros _. split; [reflexivity | by apply Z.ltb_lt].
Qed.

Section FromIdle.

Variable m0 : TicketMachine.
Hypothesis m0_idle : State m0 = IdleState.
Hypothesis m0_int : forall p, stock m0 p <= GoInt.max_int.

Lemma Invariant_init : Invariant m0 [] m0.
Proof. unfold Invariant. rewrite m0_idle. auto. Qed.

Lemma Invariant_step (l : list (Call * error)) (m : TicketMachine) (c : Call) :
  Invariant m0 l m ->
  Invariant m0 (l ++ [(c, err (call c m))]) (machine (call c m)).
Proof.
  unfold Invariant. intros H.
  destruct c; by_state m; rewrite selected_snoc, dispensed_snoc;
    rewrite ?app_nil_r, ?Nat.add_0_r; try exact H.
  - (* Idle, SelectTicket *)
    destruct H as (Hs & Hd & Hi).
    unfold HasTicket. cbn.
    destruct (0 <? inventory_at Inventory0 ticketType)%Z eqn:E; cbn.
    + rewrite Hs, Hd. apply Z.ltb_lt in E.
      repeat split; auto. unfold stock. by rewrite <- Hi.
    + rewrite ?app_nil_r, ?Nat.add_0_r. auto.
  - (* WaitingForMoney, InsertMoney *)
    destruct (PrimFloat.leb _ _); cbn; rewrite ?app_nil_r, ?Nat.add_0_r; exact H.
  - (* WaitingForMoney, Cancel *)
    destruct H as (Hs & Hd & Hi & _). eauto.
  - (* MoneyReceived, Cancel *)
    destruct H as (Hs & Hd & Hi & _). eauto.
  - (* MoneyReceived, DispenseTicket *)
    destruct H as (Hs & Hd & Hi & Hpos). rewrite Hd. split; [reflexivity |].
    exists CurrentTicket0. split; [exact Hs |]. split; [exact Hpos |].
    unfold stock, inventory_at in *. cbn. subst Inventory0. split.
    + rewrite lookup_insert_eq. cbn. apply dec_exact.
      specialize (m0_int CurrentTicket0). unfold GoInt.min_int. lia.
    + intros p Hp. by rewrite lookup_insert_ne.
Qed.

Lemma Invariant_run (cs : list Call) : Invariant m0 (log cs m0) (run cs m0).
Proof.
  induction cs as [| c cs IH] using rev_ind; [apply Invariant_init |].
  rewrite log_snoc, run_snoc. by apply Invariant_step.
Qed.

(** The inventory of a running machine lies between that of [m0] less one
    and that of [m0]. *)
Lemma run_stock_bounds (cs : list Call) (p : string) :
  stock m0 p - 1 <= stock (run cs m0) p <= stock m0 p /\
  (0 <= stock m0 p -> 0 <= stock (run cs m0) p).
Proof.
  pose proof (Invariant_run cs) as H. unfold Invariant in H.
  destruct (State (run cs m0));
    try (destruct H as (_ & _ & Hi); unfold stock; rewrite Hi; lia).
  - unfold stock. destruct H as (_ & _ & Hi & _). rewrite Hi. lia.
  - unfold stock. destruct H as (_ & _ & Hi & _). rewrite Hi. lia.
  - destruct H as (_ & t & _ & Hpos & Ht & Hp).
    destruct (decide (p = t)) as [-> | Hne]; [lia | rewrite (Hp p Hne); lia].
Qed.

(** In the two states that hold a selection, the selected ticket is the
    only successful selection of the log and is in stock. *)
Lemma run_selection (cs : list Call) :
  State (run cs m0) = WaitingForMoneyState \/
  State (run cs m0) = MoneyReceivedState ->
  selected (log cs m0) = [CurrentTicket (run cs m0)] /\
  0 < stock (run cs m0) (CurrentTicket (run cs m0)) <= GoInt.max_int.
Proof.
  pose proof (Invariant_run cs) as H. unfold Invariant in H.
  intros [E | E]; rewrite E in H; destruct H as (Hs & _ & Hi & Hpos);
    (split; [exact Hs |]); unfold stock in *; rewrite Hi;
    specialize (m0_int (CurrentTicket (run cs m0))); unfold stock in m0_int; lia.
Qed.

Lemma run_dispensed (cs : list Call) : (dispensed (log cs m0) <= 1)%nat.
Proof.
  pose proof (Invariant_run cs) as H. unfold Invariant in H.
  destruct (State (run cs m0)); destruct H as (H1 & H2 & H3); lia.
Qed.

End FromIdle.

Lemma NewTicketMachine_stock (p : string) :
  0 <= stock NewTicketMachine p <= 15.
Proof.
  unfold stock, inventory_at, NewTicketMachine. cbn.
  rewrite !lookup_insert. repeat case_decide; cbn; try lia.
  rewrite lookup_empty. cbn. lia.
Qed.

Lemma NewTicketMachine_int (p : string) :
  stock NewTicketMachine p <= GoInt.max_int.
Proof.
  pose proof (NewTicketMachine_stock p). unfold GoInt.max_int. lia.
Qed.

Lemma reachable_selection (m : TicketMachine) :
  reachable m ->
  State m = WaitingForMoneyState \/ State m = MoneyReceivedState ->
  0 < stock m (CurrentTicket m) <= GoInt.max_int.
Proof.
  intros [cs ->] H.
  by apply (run_selection NewTicketMachine eq_refl NewTicketMachine_int cs).
Qed.

(** One call on a machine that was started new: an inventory entry stays
    or drops by one, and drops only as the claim C3 says. *)
Lemma step_stock (cs : list Call) (c : Call) (p : string) :
  let m := run cs NewTicketMachine in
  let r := call c m in
  stock (machine r) p = stock m p \/
  (stock (machine r) p = stock m p - 1 /\
   c = CallDispenseTicket /\ err r = nil_error /\
   selected (log cs NewTicketMachine) = [p]).
Proof.
  intros m r.
  destruct (call_stock m c p) as [H | (Hc & Hs & Hp & He & Hd)]; [by left |].
  right.
  destruct (run_selection NewTicketMachine eq_refl NewTicketMachine_int cs
              (or_intror Hs)) as (Hsel & Hpos).
  fold m in Hsel, Hpos. rewrite <- Hp in Hsel, Hpos.
  repeat split; auto.
  subst r. rewrite Hd. apply dec_exact. unfold GoInt.min_int. lia.
Qed.

(** ** Dispensing *)

(** C1. In [MoneyReceivedState], [DispenseTicket] returns [nil], sets the
    state to [TicketDispensedState], applies [--] to the inventory entry
    of the selected ticket and to no other entry, sets [InsertedMoney] to 0
    and [CurrentTicket] to the empty string.  [--] takes exactly one off
    every count above the least [int], which covers every machine reachable
    from [NewTicketMachine].  On a new machine, selecting "metro",
    inserting 300 and dispensing all return [nil] and leave 9 of the 10
    metro tickets, in [TicketDispensedState]. *)
Theorem MoneyReceived_DispenseTicket :
  (forall m,
     State m = MoneyReceivedState ->
     let r := DispenseTicket m in
     err r = nil_error /\
     State (machine r) = TicketDispensedState /\
     stock (machine r) (CurrentTicket m)
       = GoInt.dec (stock m (CurrentTicket m)) /\
     (GoInt.min_int < stock m (CurrentTicket m) <= GoInt.max_int ->
      stock (machine r) (CurrentTicket m) = stock m (CurrentTicket m) - 1) /\
     (forall p, p <> CurrentTicket m -> stock (machine r) p = stock m p) /\
     InsertedMoney (machine r) = 0%float /\
     CurrentTicket (machine r) = "") /\
  (forall m,
     reachable m -> State m = MoneyReceivedState ->
     stock (machine (DispenseTicket m)) (CurrentTicket m)
       = stock m (CurrentTicket m) - 1) /\
  (let cs := [CallSelectTicket "metro"; CallInsertMoney 300%float;
              CallDispenseTicket] in
   errs cs NewTicketMachine = [nil_error; nil_error; nil_error] /\
   stock NewTicketMachine "metro" = 10 /\
   stock (run cs NewTicketMachine) "metro" = 9 /\
   State (run cs NewTicketMachine) = TicketDispensedState).
Proof.
  assert (Hgen : forall m, State m = MoneyReceivedState ->
            DispenseTicket m
            = mkOutcome
                (set_CurrentTicket
                   (set_InsertedMoney
                      (dec_Inventory (SetState m TicketDispensedState)
                                     (CurrentTicket m)) 0%float) "")
                nil_error [TicketDispensedLine]).
  { intros m H. by_state m; try discriminate. reflexivity. }
  assert (Hsame : forall m, State m = MoneyReceivedState ->
            stock (machine (DispenseTicket m)) (CurrentTicket m)
            = GoInt.dec (stock m (CurrentTicket m))).
  { intros m H. rewrite (Hgen m H). cbn.
    exact (stock_dec_same (SetState m TicketDispensedState) (CurrentTicket m)). }
  split; [| split].
  - intros m H r. subst r. repeat split.
    + by rewrite (Hgen m H).
    + by rewrite (Hgen m H).
    + by apply Hsame.
    + intros Hr. rewrite (Hsame m H). by apply dec_exact.
    + intros p Hp. rewrite (Hgen m H). cbn.
      exact (stock_dec_other (SetState m TicketDispensedState) _ _ Hp).
    + by rewrite (Hgen m H).
    + by rewrite (Hgen m H).
  - intros m Hreach H. rewrite (Hsame m H). apply dec_exact.
    pose proof (reachable_selection m Hreach (or_intror H)).
    unfold GoInt.min_int. lia.
  - vm_compute. repeat split.
Qed.

Lemma MoneyReceived_DispenseTicket_witness :
  let m := run [CallSelectTicket "bus"; CallInsertMoney 250%float]
               NewTicketMachine in
  State m = MoneyReceivedState /\
  (GoInt.min_int < stock m (CurrentTicket m) <= GoInt.max_int) /\
  stock (machine (DispenseTicket m)) "bus" = 14.
Proof.
  intros m.
  assert (H : State m = MoneyReceivedState) by reflexivity.
  assert (Hr : GoInt.min_int < stock m (CurrentTicket m) <= GoInt.max_int)
    by (vm_compute; split; [reflexivity | discriminate]).
  split; [exact H |]. split; [exact Hr |].
  destruct (proj1 MoneyReceived_DispenseTicket m H) as (_ & _ & _ & Hx & _).
  exact (Hx Hr).
Defined.

(** ** Inventory along a run *)

(** C3. Along every sequence of calls on a new machine and for every
    ticket type [p], no call raises the inventory entry of [p], and so no
    later entry exceeds an earlier one; a call that changes the entry
    lowers it by exactly 1, is a [DispenseTicket] that returned [nil], and
    the one [SelectTicket] that had returned [nil] before it chose [p]. *)
Theorem inventory_monotone (cs : list Call) (c : Call) (p : string) :
  let m := run cs NewTicketMachine in
  let r := call c m in
  stock (machine r) p <= stock m p /\
  (stock (machine r) p <> stock m p ->
   stock (machine r) p = stock m p - 1 /\
   c = CallDispenseTicket /\ err r = nil_error /\
   selected (log cs NewTicketMachine) = [p]) /\
  (forall cs', stock (run (cs ++ cs') NewTicketMachine) p <= stock m p).
Proof.
  intros m r. split; [| split].
  - destruct (step_stock cs c p) as [H | (H & _)]; fold m r in H; lia.
  - intros Hne. destruct (step_stock cs c p) as [H | H]; fold m r in H; tauto.
  - induction cs' as [| c' cs' IH] using rev_ind.
    + rewrite app_nil_r. fold m. lia.
    + rewrite app_assoc, run_snoc.
      destruct (step_stock (cs ++ cs') c' p) as [H | (H & _)]; cbn in H; lia.
Qed.

Lemma inventory_monotone_witness :
  let cs := [CallSelectTicket "metro"; CallInsertMoney 300%float] in
  let m := run cs NewTicketMachine in
  let r := call CallDispenseTicket m in
  stock (machine r) "metro" <> stock m "metro" /\
  stock (machine r) "metro" = stock m "metro" - 1 /\
  selected (log cs NewTicketMachine) = ["metro"].
Proof.
  intros cs m r.
  assert (Hne : stock (machine r) "metro" <> stock m "metro")
    by (vm_compute; discriminate).
  split; [exact Hne |].
  destruct (inventory_monotone cs CallDispenseTicket "metro")
    as (_ & Hstep & _).
  destruct (Hstep Hne) as (Hdec & _ & _ & Hsel).
  split; [exact Hdec | exact Hsel].
Defined.

(** C9. In every machine reachable from [NewTicketMachine] every inventory
    entry is [>= 0]: [SelectTicket] returns [nil] only for a ticket whose
    entry is [> 0], a run holds at most one [DispenseTicket] that returned
    [nil], and no other call writes to the inventory. *)
Theorem inventory_never_negative :
  (forall m p, reachable m -> 0 <= stock m p) /\
  (forall m t, err (SelectTicket m t) = nil_error -> 0 < stock m t) /\
  (forall cs, (dispensed (log cs NewTicketMachine) <= 1)%nat) /\
  (forall m c,
     c <> CallDispenseTicket -> Inventory (machine (call c m)) = Inventory m).
Proof.
  split; [| split; [| split]].
  - intros m p [cs ->].
    apply (run_stock_bounds NewTicketMachine eq_refl NewTicketMachine_int cs p).
    apply NewTicketMachine_stock.
  - intros m t H. by apply SelectTicket_ok.
  - intros cs.
    exact (run_dispensed NewTicketMachine eq_refl NewTicketMachine_int cs).
  - exact call_Inventory.
Qed.

Lemma inventory_never_negative_witness :
  let cs := [CallSelectTicket "train"; CallInsertMoney 1000%float;
             CallDispenseTicket; CallDispenseTicket] in
  reachable (run cs NewTicketMachine) /\
  0 <= stock (run cs NewTicketMachine) "train".
Proof.
  intros cs.
  assert (H : reachable (run cs NewTicketMachine)) by (exists cs; reflexivity).
  split; [exact H |].
  exact (proj1 inventory_never_negative (run cs NewTicketMachine) "train" H).
Defined.

(** ** Money that falls below the price *)

(** C10. [InsertMoney] in [MoneyReceivedState] adds the amount and keeps
    the state whatever the new total is.  So after selecting "metro",
    inserting its price 300 and then inserting -100, all three calls having
    returned [nil], the machine is in [MoneyReceivedState] with 200 < 300
    inserted, and [DispenseTicket] still returns [nil], moves to
    [TicketDispensedState] and takes one metro ticket off the inventory. *)
Theorem MoneyReceived_InsertMoney_no_recheck :
  (forall m amount,
     State m = MoneyReceivedState ->
     let r := InsertMoney m amount in
     err r = nil_error /\
     State (machine r) = MoneyReceivedState /\
     InsertedMoney (machine r) = (InsertedMoney m + amount)%float /\
     CurrentPrice (machine r) = CurrentPrice m) /\
  (let cs := [CallSelectTicket "metro"; CallInsertMoney 300%float;
              CallInsertMoney (-100)%float] in
   let m := run cs NewTicketMachine in
   let r := DispenseTicket m in
   errs cs NewTicketMachine = [nil_error; nil_error; nil_error] /\
   State m = MoneyReceivedState /\
   InsertedMoney m = 200%float /\ CurrentPrice m = 300%float /\
   PrimFloat.ltb (InsertedMoney m) (CurrentPrice m) = true /\
   err r = nil_error /\
   State (machine r) = TicketDispensedState /\
   stock m "metro" = 10 /\ stock (machine r) "metro" = 9).
Proof.
  split.
  - intros m amount H. by_state m; try discriminate. repeat split.
  - vm_compute. repeat split.
Qed.

Lemma MoneyReceived_InsertMoney_no_recheck_witness :
  let m := run [CallSelectTicket "bus"; CallInsertMoney 250%float]
               NewTicketMachine in
  State m = MoneyReceivedState /\
  State (machine (InsertMoney m (-250)%float)) = MoneyReceivedState.
Proof.
  intros m.
  assert (H : State m = MoneyReceivedState) by reflexivity.
  split; [exact H |].
  exact (proj1 (proj2 (proj1 MoneyReceived_InsertMoney_no_recheck
                         m (-250)%float H))).
Defined.

(** ** Names *)

(** C6, as the claim has it, fails: after a successful [SelectTicket "bus"]
    and a successful [Cancel] on a new machine, [GetCurrentState] does not
    return "Canceled". *)
Lemma GetCurrentState_not_Canceled :
  let cs := [CallSelectTicket "bus"; CallCancel] in
  errs cs NewTicketMachine = [nil_error; nil_error] /\
  GetCurrentState (run cs NewTicketMachine) <> "Canceled".
Proof. vm_compute. split; [reflexivity | discriminate]. Qed.

(** C6, amended. On a new machine [SelectTicket "bus"] and then [Cancel]
    both return [nil], the state is [TransactionCanceledState], and
    [GetCurrentState] returns that state's name, "TransactionCanceled". *)
Theorem GetCurrentState_after_cancel :
  let cs := [CallSelectTicket "bus"; CallCancel] in
  errs cs NewTicketMachine = [nil_error; nil_error] /\
  State (run cs NewTicketMachine) = TransactionCanceledState /\
  GetCurrentState (run cs NewTicketMachine) = "TransactionCanceled".
Proof. vm_compute. repeat split. Qed.

(** C7, as the claim has it, fails: a new machine is in [IdleState] and
    its [DispenseTicket] does not fail with "insufficient funds"; after a
    selection the machine is in [WaitingForMoneyState] and its
    [DispenseTicket] does not fail with "please select a ticket first". *)
Lemma DispenseTicket_errors_not_as_paired :
  let m1 := run [CallSelectTicket "metro"] NewTicketMachine in
  State NewTicketMachine = IdleState /\
  err (DispenseTicket NewTicketMachine) <> Some ErrorKind.InsufficientFunds /\
  State m1 = WaitingForMoneyState /\
  err (DispenseTicket m1) <> Some ErrorKind.NoSelection.
Proof. vm_compute. repeat split; discriminate. Qed.

(** C7, amended. In [IdleState], [DispenseTicket] fails with "no paid
    ticket" (NoPaidProduct), and in [WaitingForMoneyState] it fails with
    "insufficient funds" (InsufficientFunds); either way the machine is
    left as it was. *)
Theorem DispenseTicket_before_payment (m : TicketMachine) :
  (State m = IdleState ->
   DispenseTicket m = fails m ErrorKind.NoPaidProduct) /\
  (State m = WaitingForMoneyState ->
   DispenseTicket m = fails m ErrorKind.InsufficientFunds).
Proof. split; intros H; by_state m; try discriminate; reflexivity. Qed.

Lemma DispenseTicket_before_payment_witness :
  let m1 := run [CallSelectTicket "metro"] NewTicketMachine in
  (State NewTicketMachine = IdleState /\
   err (DispenseTicket NewTicketMachine) = Some "no paid ticket") /\
  (State m1 = WaitingForMoneyState /\
   err (DispenseTicket m1) = Some "insufficient funds").
Proof.
  intros m1.
  assert (H0 : State NewTicketMachine = IdleState) by reflexivity.
  assert (H1 : State m1 = WaitingForMoneyState) by reflexivity.
  split; (split; [assumption |]).
  - by rewrite (proj1 (DispenseTicket_before_payment NewTicketMachine) H0).
  - by rewrite (proj2 (DispenseTicket_before_payment m1) H1).
Defined.

(** * Further properties of the source *)

(** ** Which calls are accepted *)

(** A call returns [nil] exactly when it is [SelectTicket] in [IdleState]
    for a ticket that [HasTicket] finds, [InsertMoney] or [Cancel] in
    [WaitingForMoneyState] or [MoneyReceivedState], or [DispenseTicket] in
    [MoneyReceivedState]. *)
Theorem call_accepted_iff (m : TicketMachine) (c : Call) :
  err (call c m) = nil_error <->
  match c, State m with
  | CallSelectTicket t, IdleState => HasTicket m t = true
  | CallInsertMoney _, (WaitingForMoneyState | MoneyReceivedState)
  | CallCancel, (WaitingForMoneyState | MoneyReceivedState)
  | CallDispenseTicket, MoneyReceivedState => True
  | _, _ => False
  end.
Proof.
  destruct c; by_state m; try (split; [discriminate | tauto]);
    try (split; [auto | reflexivity]).
  - destruct (HasTicket _ _); cbn; split; auto; discriminate.
  - destruct (PrimFloat.leb _ _); cbn; split; auto.
Qed.

(** A call prints nothing exactly when it returns an error or is
    [Cancel]; every other accepted call prints at least one line. *)
Theorem call_silent_iff (m : TicketMachine) (c : Call) :
  printed (call c m) = [] <-> err (call c m) <> nil_error \/ c = CallCancel.
Proof.
  split.
  - destruct c; by_state m; intros H; try (left; discriminate);
      try (right; reflexivity); try discriminate.
    + destruct (HasTicket _ _); cbn in *; [discriminate | left; discriminate].
    + destruct (PrimFloat.leb _ _); cbn in *; discriminate.
  - intros [H | ->].
    + by destruct (call_error_frame m c H).
    + by_state m; reflexivity.
Qed.

Lemma call_silent_iff_witness :
  let m := run [CallSelectTicket "metro"] NewTicketMachine in
  printed (call CallCancel m) = [] /\
  (err (call CallCancel m) <> nil_error \/ CallCancel = CallCancel).
Proof.
  intros m.
  assert (H : printed (call CallCancel m) = []) by reflexivity.
  split; [exact H |].
  exact (proj1 (call_silent_iff m CallCancel) H).
Defined.

(** ** The moves between states *)

Lemma call_moves_cases (m : TicketMachine) (c : Call) :
  let s := State m in
  let s' := State (machine (call c m)) in
  s' = s \/
  (s = IdleState /\ s' = WaitingForMoneyState /\
   exists t, c = CallSelectTicket t) \/
  (s = WaitingForMoneyState /\ s' = MoneyReceivedState /\
   exists a, c = CallInsertMoney a) \/
  ((s = WaitingForMoneyState \/ s = MoneyReceivedState) /\
   s' = TransactionCanceledState /\ c = CallCancel) \/
  (s = MoneyReceivedState /\ s' = TicketDispensedState /\
   c = CallDispenseTicket).
Proof.
  destruct c; by_state m; auto.
  - destruct (HasTicket _ _); cbn; [right; left; eauto | auto].
  - destruct (PrimFloat.leb _ _); cbn; [right; right; left; eauto | auto].
  - right; right; right; left. auto.
  - right; right; right; left. auto.
  - right; right; right; right. auto.
Qed.

(** One call leaves the state as it is or makes one of five moves, each
    by its own method: Idle to WaitingForMoney by [SelectTicket],
    WaitingForMoney to MoneyReceived by [InsertMoney], WaitingForMoney or
    MoneyReceived to TransactionCanceled by [Cancel], MoneyReceived to
    TicketDispensed by [DispenseTicket]. *)
Theorem call_moves (m : TicketMachine) (c : Call) :
  let s := State m in
  let s' := State (machine (call c m)) in
  s' = s \/
  (s = IdleState /\ s' = WaitingForMoneyState /\
   exists t, c = CallSelectTicket t) \/
  (s = WaitingForMoneyState /\ s' = MoneyReceivedState /\
   exists a, c = CallInsertMoney a) \/
  ((s = WaitingForMoneyState \/ s = MoneyReceivedState) /\
   s' = TransactionCanceledState /\ c = CallCancel) \/
  (s = MoneyReceivedState /\ s' = TicketDispensedState /\
   c = CallDispenseTicket).
Proof. exact (call_moves_cases m c). Qed.

Lemma call_stage (m : TicketMachine) (c : Call) :
  (stage (State m) <= stage (State (machine (call c m))))%nat.
Proof.
  destruct (call_moves_cases m c)
    as [H | [(H & H' & _) | [(H & H' & _) | [([H | H] & H' & _) | (H & H' & _)]]]];
    cbn in *; rewrite ?H, ?H'; cbn; lia.
Qed.

Lemma run_stage (m : TicketMachine) (cs : list Call) :
  (stage (State m) <= stage (State (run cs m)))%nat.
Proof.
  induction cs as [| c cs IH] using rev_ind; [cbn; lia |].
  rewrite run_snoc. pose proof (call_stage (run cs m) c). lia.
Qed.

(** No sequence of calls takes a machine back: the stage of the state
    (Idle, then WaitingForMoney, then MoneyReceived, then one of the two
    final states) never goes down; a machine that has left [IdleState]
    never is in it again, and one that has left [WaitingForMoneyState]
    never waits again. *)
Theorem run_never_goes_back (m : TicketMachine) (cs : list Call) :
  (stage (State m) <= stage (State (run cs m)))%nat /\
  (State m <> IdleState -> State (run cs m) <> IdleState) /\
  (State m <> IdleState -> State m <> WaitingForMoneyState ->
   State (run cs m) <> WaitingForMoneyState).
Proof.
  pose proof (run_stage m cs) as Hst.
  split; [exact Hst |].
  split; intros; destruct (State m), (State (run cs m)); cbn in Hst;
    try congruence; lia.
Qed.

Lemma run_never_goes_back_witness :
  let m := run [CallSelectTicket "bus"; CallInsertMoney 250%float]
               NewTicketMachine in
  let cs := [CallSelectTicket "metro"; CallInsertMoney (-250)%float] in
  State m <> IdleState /\ State m <> WaitingForMoneyState /\
  State (run cs m) <> WaitingForMoneyState.
Proof.
  intros m cs.
  assert (H1 : State m <> IdleState) by (vm_compute; discriminate).
  assert (H2 : State m <> WaitingForMoneyState) by (vm_compute; discriminate).
  split; [exact H1 |]. split; [exact H2 |].
  exact (proj2 (proj2 (run_never_goes_back m cs)) H1 H2).
Defined.

(** ** State names *)

(** The five [Name] methods return five different strings, so
    [GetCurrentState] tells the states apart: two machines report the same
    name exactly when they are in the same state. *)
Theorem GetCurrentState_inj (m1 m2 : TicketMachine) :
  GetCurrentState m1 = GetCurrentState m2 <-> State m1 = State m2.
Proof.
  unfold GetCurrentState. split; [| by intros ->].
  destruct (State m1), (State m2); cbn; intros H; try reflexivity;
    discriminate.
Qed.

(** ** One transaction per machine *)

Lemma log_cons (c : Call) (cs : list Call) (m : TicketMachine) :
  log (c :: cs) m = (c, err (call c m)) :: log cs (machine (call c m)).
Proof. reflexivity. Qed.

Lemma run_cons (c : Call) (cs : list Call) (m : TicketMachine) :
  run (c :: cs) m = run cs (machine (call c m)).
Proof. reflexivity. Qed.

Lemma selected_cons (c : Call) (e : error) (l : list (Call * error)) :
  selected ((c, e) :: l)
  = match c, e with
    | CallSelectTicket t, None => [t]
    | _, _ => []
    end ++ selected l.
Proof. destruct c, e; reflexivity. Qed.

Lemma dispensed_cons (c : Call) (e : error) (l : list (Call * error)) :
  dispensed ((c, e) :: l)
  = (match c, e with
     | CallDispenseTicket, None => 1
     | _, _ => 0
     end + dispensed l)%nat.
Proof. destruct c, e; reflexivity. Qed.

(** Whatever machine a caller starts from and whatever it calls, at most
    one [SelectTicket] and at most one [DispenseTicket] ever return [nil];
    no [SelectTicket] does unless the machine starts in [IdleState], and no
    [DispenseTicket] does on a machine that starts in a final state. *)
Theorem one_transaction (cs : list Call) (m : TicketMachine) :
  (length (selected (log cs m)) <= 1)%nat /\
  (dispensed (log cs m) <= 1)%nat /\
  (State m <> IdleState -> selected (log cs m) = []) /\
  (stage (State m) = 3%nat -> dispensed (log cs m) = 0%nat).
Proof.
  revert m. induction cs as [| c cs IH]; intros m.
  { cbn. repeat split; auto. }
  rewrite log_cons, selected_cons, dispensed_cons.
  destruct c; by_state m;
    try destruct (HasTicket _ _); try destruct (PrimFloat.leb _ _); cbn;
    match goal with
    | |- context [log cs ?m'] =>
        destruct (IH m') as (IH1 & IH2 & IH3 & IH4); cbn in IH3, IH4
    end;
    repeat split; intros; try congruence; try discriminate;
    rewrite ?IH3 by discriminate; rewrite ?IH4 by reflexivity;
    cbn; auto; lia.
Qed.

Lemma call_ok_not_idle (m : TicketMachine) (c : Call) :
  err (call c m) = nil_error -> State (machine (call c m)) <> IdleState.
Proof.
  destruct c; by_state m; try discriminate.
  - destruct (HasTicket _ _); cbn; discriminate.
  - destruct (PrimFloat.leb _ _); cbn; discriminate.
Qed.

Lemma idle_run_fixed (m : TicketMachine) (cs : list Call) :
  State (run cs m) = IdleState -> run cs m = m.
Proof.
  intros H. pose proof (run_stage m cs) as Hst. rewrite H in Hst.
  revert H. induction cs as [| c cs IH] using rev_ind; [reflexivity |].
  rewrite run_snoc. intros H.
  assert (Herr : err (call c (run cs m)) <> nil_error).
  { intros E. by apply (call_ok_not_idle _ c E). }
  destruct (call_error_frame _ c Herr) as (Hm & _).
  rewrite Hm in *. by apply IH.
Qed.

(** A machine that is in [IdleState] after a sequence of calls has
    accepted none of them: every call returned an error and the machine is
    the one the caller started with.  So there is no way back to a fresh
    machine, and the only idle machine reachable from [NewTicketMachine] is
    [NewTicketMachine] itself. *)
Theorem idle_after_run (m : TicketMachine) (cs : list Call) :
  State (run cs m) = IdleState ->
  run cs m = m /\ Forall (fun e => e <> nil_error) (errs cs m).
Proof.
  revert m. induction cs as [| c cs IH]; intros m H.
  { split; [reflexivity | constructor]. }
  rewrite run_cons in H. destruct (IH _ H) as (Hrun & Herrs).
  rewrite Hrun in H.
  assert (Herr : err (call c m) <> nil_error).
  { intros E. by apply (call_ok_not_idle m c E). }
  destruct (call_error_frame m c Herr) as (Hm & _).
  rewrite run_cons, Hrun, Hm. split; [reflexivity |].
  unfold errs in *. cbn. constructor; [exact Herr | exact Herrs].
Qed.

Lemma idle_after_run_witness :
  let cs := [CallSelectTicket "tram"; CallInsertMoney 300%float; CallCancel;
             CallDispenseTicket] in
  State (run cs NewTicketMachine) = IdleState /\
  run cs NewTicketMachine = NewTicketMachine.
Proof.
  intros cs.
  assert (H : State (run cs NewTicketMachine) = IdleState) by reflexivity.
  split; [exact H |].
  exact (proj1 (idle_after_run NewTicketMachine cs H)).
Defined.

(** ** Selecting *)

(** [SelectTicket] in [IdleState].  [HasTicket] holds exactly of a type
    whose inventory entry exists and is positive.  For any other type the
    call fails with "ticket unavailable" and changes nothing.  For such a
    type it returns [nil], moves to [WaitingForMoneyState], records the
    type and the price the table has for it, which is 0 for a type without
    a price entry, and leaves the money and both tables as they were. *)
Theorem idle_SelectTicket (m : TicketMachine) (t : string) :
  State m = IdleState ->
  (HasTicket m t = true <-> exists n, Inventory m !! t = Some n /\ 0 < n) /\
  (HasTicket m t = false ->
   SelectTicket m t = fails m ErrorKind.ProductUnavailable) /\
  (HasTicket m t = true ->
   let r := SelectTicket m t in
   err r = nil_error /\
   State (machine r) = WaitingForMoneyState /\
   CurrentTicket (machine r) = t /\
   CurrentPrice (machine r) = default 0%float (TicketPrices m !! t) /\
   InsertedMoney (machine r) = InsertedMoney m /\
   Inventory (machine r) = Inventory m /\
   TicketPrices (machine r) = TicketPrices m /\
   printed r = [TicketSelectedLine t (default 0%float (TicketPrices m !! t))]).
Proof.
  intros H. split; [| split].
  - unfold HasTicket, inventory_at. rewrite Z.ltb_lt.
    destruct (Inventory m !! t) as [n |]; cbn; split.
    + eauto.
    + by intros (n' & [= ->] & Hn).
    + lia.
    + by intros (n' & [=] & _).
  - intros E. by_state m; try discriminate. by rewrite E.
  - intros E. by_state m; try discriminate. rewrite E. cbn. repeat split.
Qed.

Lemma idle_SelectTicket_witness :
  State NewTicketMachine = IdleState /\
  HasTicket NewTicketMachine "tram" = false /\
  SelectTicket NewTicketMachine "tram"
  = fails NewTicketMachine "ticket unavailable".
Proof.
  assert (H : State NewTicketMachine = IdleState) by reflexivity.
  assert (E : HasTicket NewTicketMachine "tram" = false) by reflexivity.
  split; [exact H |]. split; [exact E |].
  exact (proj1 (proj2 (idle_SelectTicket NewTicketMachine "tram" H)) E).
Defined.

Lemma NewTicketMachine_HasTicket (t : string) :
  HasTicket NewTicketMachine t = true ->
  t = "metro" \/ t = "bus" \/ t = "train".
Proof.
  unfold HasTicket, inventory_at, NewTicketMachine. cbn.
  rewrite !lookup_insert. repeat case_decide; auto.
  rewrite lookup_empty. cbn. discriminate.
Qed.

(** ** Prices *)

(** No call writes to the price table, and on a machine started in
    [IdleState] the price owed is the table's: whenever the machine is in
    [WaitingForMoneyState], [MoneyReceivedState] or
    [TransactionCanceledState], [CurrentPrice] is what [GetTicketPrice]
    gives for [CurrentTicket]. *)
Theorem price_is_table_price (m0 : TicketMachine) (cs : list Call) :
  State m0 = IdleState ->
  let m := run cs m0 in
  TicketPrices m = TicketPrices m0 /\
  (State m = WaitingForMoneyState \/ State m = MoneyReceivedState \/
   State m = TransactionCanceledState ->
   CurrentPrice m = GetTicketPrice m (CurrentTicket m)).
Proof.
  intros H0. cbn zeta.
  induction cs as [| c cs IH] using rev_ind.
  { cbn. split; [reflexivity |]. rewrite H0. intros [H | [H | H]]; discriminate. }
  rewrite run_snoc. destruct IH as (IHp & IHc). revert IHp IHc.
  generalize (run cs m0) as m. intros m IHp IHc.
  destruct c; by_state m;
    try destruct (HasTicket _ _); try destruct (PrimFloat.leb _ _); cbn;
    (split; [exact IHp |]); intros Hs;
    try (apply IHc; tauto); try reflexivity;
    destruct Hs as [Hs | [Hs | Hs]]; discriminate.
Qed.

Lemma price_is_table_price_witness :
  let m := run [CallSelectTicket "train"; CallInsertMoney 10%float; CallCancel]
               NewTicketMachine in
  State NewTicketMachine = IdleState /\
  State m = TransactionCanceledState /\
  CurrentPrice m = GetTicketPrice m (CurrentTicket m).
Proof.
  intros m.
  assert (H0 : State NewTicketMachine = IdleState) by reflexivity.
  assert (H : State m = TransactionCanceledState) by reflexivity.
  split; [exact H0 |]. split; [exact H |].
  exact (proj2 (price_is_table_price NewTicketMachine
                  [CallSelectTicket "train"; CallInsertMoney 10%float;
                   CallCancel] H0)
               (or_intror (or_intror H))).
Defined.

(** ** Paying, over several calls *)

(** On a machine reachable from [NewTicketMachine],
    [WaitingForMoneyState] means that the money inserted does not cover
    the price: [InsertedMoney >= CurrentPrice] is false there. *)
Theorem waiting_is_underpaid (m : TicketMachine) :
  reachable m ->
  State m = WaitingForMoneyState ->
  PrimFloat.leb (CurrentPrice m) (InsertedMoney m) = false.
Proof.
  intros [cs ->]. induction cs as [| c cs IH] using rev_ind; [discriminate |].
  rewrite run_snoc.
  destruct (State (run cs NewTicketMachine)) eqn:Es.
  - (* still the new machine *)
    rewrite (idle_run_fixed NewTicketMachine cs Es).
    destruct c; cbn; try discriminate.
    unfold SelectTicket, methods, st_SelectTicket, Idle.SelectTicket. cbn.
    destruct (HasTicket NewTicketMachine ticketType) eqn:E; cbn;
      [| discriminate].
    intros _.
    destruct (NewTicketMachine_HasTicket _ E) as [-> | [-> | ->]];
      reflexivity.
  - specialize (IH eq_refl). revert Es IH.
    generalize (run cs NewTicketMachine) as m. intros m Es IH.
    destruct c; by_state m; try discriminate; auto.
    match goal with
    | |- context [if ?b then _ else _] => destruct b eqn:E
    end; cbn; [discriminate | auto].
  - intros H. pose proof (call_stage (run cs NewTicketMachine) c) as Hst.
    rewrite Es, H in Hst. cbn in Hst. lia.
  - intros H. pose proof (call_stage (run cs NewTicketMachine) c) as Hst.
    rewrite Es, H in Hst. cbn in Hst. lia.
  - intros H. pose proof (call_stage (run cs NewTicketMachine) c) as Hst.
    rewrite Es, H in Hst. cbn in Hst. lia.
Qed.

Lemma waiting_is_underpaid_witness :
  let cs := [CallSelectTicket "train"; CallInsertMoney 999.5%float] in
  let m := run cs NewTicketMachine in
  reachable m /\ State m = WaitingForMoneyState /\
  PrimFloat.leb (CurrentPrice m) (InsertedMoney m) = false.
Proof.
  intros cs m.
  assert (Hr : reachable m) by (exists cs; reflexivity).
  assert (Hs : State m = WaitingForMoneyState) by reflexivity.
  split; [exact Hr |]. split; [exact Hs |].
  exact (waiting_is_underpaid m Hr Hs).
Defined.

(** A series of [InsertMoney] calls in [WaitingForMoneyState] or
    [MoneyReceivedState]: every call returns [nil], the money inserted is
    the old amount with the amounts added one after the other in
    [float64], whether or not the price is reached on the way, the state
    stays one of the two and stays [MoneyReceivedState] once it is, and the
    selection, its price and the inventory are not touched. *)
Theorem InsertMoney_series (m : TicketMachine) (amounts : list float) :
  State m = WaitingForMoneyState \/ State m = MoneyReceivedState ->
  let cs := map CallInsertMoney amounts in
  Forall (fun e => e = nil_error) (errs cs m) /\
  InsertedMoney (run cs m) = add_all (InsertedMoney m) amounts /\
  (State (run cs m) = WaitingForMoneyState \/
   State (run cs m) = MoneyReceivedState) /\
  (State m = MoneyReceivedState -> State (run cs m) = MoneyReceivedState) /\
  CurrentTicket (run cs m) = CurrentTicket m /\
  CurrentPrice (run cs m) = CurrentPrice m /\
  Inventory (run cs m) = Inventory m.
Proof.
  cbn zeta. revert m. induction amounts as [| a amounts IH]; intros m H.
  { cbn. repeat split; auto. }
  cbn [map]. rewrite run_cons. unfold errs. rewrite log_cons. cbn [map snd].
  assert (Hstep : err (call (CallInsertMoney a) m) = nil_error /\
                  (State (machine (call (CallInsertMoney a) m))
                   = WaitingForMoneyState \/
                   State (machine (call (CallInsertMoney a) m))
                   = MoneyReceivedState) /\
                  (State m = MoneyReceivedState ->
                   State (machine (call (CallInsertMoney a) m))
                   = MoneyReceivedState) /\
                  InsertedMoney (machine (call (CallInsertMoney a) m))
                  = (InsertedMoney m + a)%float /\
                  CurrentTicket (machine (call (CallInsertMoney a) m))
                  = CurrentTicket m /\
                  CurrentPrice (machine (call (CallInsertMoney a) m))
                  = CurrentPrice m /\
                  Inventory (machine (call (CallInsertMoney a) m))
                  = Inventory m).
  { destruct H as [H | H]; by_state m; try discriminate.
    - destruct (PrimFloat.leb _ _); cbn; repeat split; auto; discriminate.
    - repeat split; auto. }
  destruct Hstep as (He & Hs & Hmr & Hi & Ht & Hp & Hinv).
  destruct (IH _ Hs) as (IHe & IHi & IHs & IHmr & IHt & IHp & IHinv).
  repeat split.
  - constructor; [exact He | exact IHe].
  - rewrite IHi, Hi. reflexivity.
  - exact IHs.
  - intros Hm. apply IHmr. by apply Hmr.
  - by rewrite IHt.
  - by rewrite IHp.
  - by rewrite IHinv.
Qed.

Lemma InsertMoney_series_witness :
  let m := run [CallSelectTicket "metro"] NewTicketMachine in
  let amounts := [100%float; 250%float; (-200)%float] in
  (State m = WaitingForMoneyState \/ State m = MoneyReceivedState) /\
  InsertedMoney (run (map CallInsertMoney amounts) m) = 150%float /\
  State (run (map CallInsertMoney amounts) m) = MoneyReceivedState.
Proof.
  intros m amounts.
  assert (H : State m = WaitingForMoneyState \/ State m = MoneyReceivedState)
    by (left; reflexivity).
  split; [exact H |].
  destruct (InsertMoney_series m amounts H) as (_ & Hi & _).
  split; [exact Hi | reflexivity].
Defined.

(** ** A whole purchase *)

Lemma purchase_at (m : TicketMachine) (t : string) (price : float) :
  State m = IdleState ->
  HasTicket m t = true ->
  stock m t <= GoInt.max_int ->
  GetTicketPrice m t = price ->
  PrimFloat.leb price (InsertedMoney m + price) = true ->
  let cs := [CallSelectTicket t; CallInsertMoney price; CallDispenseTicket] in
  errs cs m = [nil_error; nil_error; nil_error] /\
  CurrentPrice (run [CallSelectTicket t] m) = price /\
  State (run cs m) = TicketDispensedState /\
  stock (run cs m) t = stock m t - 1 /\
  (forall p, p <> t -> stock (run cs m) p = stock m p) /\
  InsertedMoney (run cs m) = 0%float /\
  CurrentTicket (run cs m) = "" /\
  CurrentPrice (run cs m) = price.
Proof.
  intros Hs Hhas Hmax <- Hpay. unfold errs, run, stock in *.
  by_state m; try discriminate.
  unfold GetTicketPrice, HasTicket in *. cbn in *.
  do 3 (unfold_methods; unfold HasTicket, GetTicketPrice; cbn;
        rewrite ?Hhas, ?Hpay; cbn).
  repeat split.
  - unfold inventory_at at 1. rewrite lookup_insert_eq. cbn.
    apply dec_exact. apply Z.ltb_lt in Hhas. unfold GoInt.min_int. lia.
  - intros p Hp. unfold inventory_at at 1. by rewrite lookup_insert_ne.
Qed.

(** From any machine in [IdleState]: if [HasTicket] finds the type, its
    count is an [int], and inserting the table price brings the money to
    at least that price, then [SelectTicket], [InsertMoney] of the price
    and [DispenseTicket] all return [nil]; the machine ends in
    [TicketDispensedState] with one ticket of that type less, every other
    count as before, no money and no selection, while [CurrentPrice] keeps
    the price paid. *)
Theorem purchase (m : TicketMachine) (t : string) :
  State m = IdleState ->
  HasTicket m t = true ->
  stock m t <= GoInt.max_int ->
  PrimFloat.leb (GetTicketPrice m t)
                (InsertedMoney m + GetTicketPrice m t) = true ->
  let cs := [CallSelectTicket t; CallInsertMoney (GetTicketPrice m t);
             CallDispenseTicket] in
  errs cs m = [nil_error; nil_error; nil_error] /\
  State (run cs m) = TicketDispensedState /\
  stock (run cs m) t = stock m t - 1 /\
  (forall p, p <> t -> stock (run cs m) p = stock m p) /\
  InsertedMoney (run cs m) = 0%float /\
  CurrentTicket (run cs m) = "" /\
  CurrentPrice (run cs m) = GetTicketPrice m t.
Proof.
  intros Hs Hhas Hmax Hpay.
  destruct (purchase_at m t _ Hs Hhas Hmax eq_refl Hpay)
    as (He & _ & Hrest).
  split; [exact He | exact Hrest].
Qed.

Lemma purchase_witness :
  let cs := [CallSelectTicket "train"; CallInsertMoney 1000%float;
             CallDispenseTicket] in
  State NewTicketMachine = IdleState /\
  HasTicket NewTicketMachine "train" = true /\
  errs cs NewTicketMachine = [nil_error; nil_error; nil_error] /\
  stock (run cs NewTicketMachine) "train" = 4.
Proof.
  intros cs.
  assert (H1 : State NewTicketMachine = IdleState) by reflexivity.
  assert (H2 : HasTicket NewTicketMachine "train" = true) by reflexivity.
  assert (H3 : stock NewTicketMachine "train" <= GoInt.max_int)
    by (vm_compute; discriminate).
  assert (H4 : PrimFloat.leb (GetTicketPrice NewTicketMachine "train")
                 (InsertedMoney NewTicketMachine
                  + GetTicketPrice NewTicketMachine "train") = true)
    by reflexivity.
  destruct (purchase NewTicketMachine "train" H1 H2 H3 H4)
    as (He & _ & Hst & _).
  split; [exact H1 |]. split; [exact H2 |]. split; [exact He | exact Hst].
Defined.

(** A type that is in stock but has no entry in the price table costs 0:
    on an idle machine holding no money, selecting it, inserting 0 and
    dispensing all return [nil] and hand the ticket out. *)
Theorem unpriced_ticket_is_free (m : TicketMachine) (t : string) :
  State m = IdleState ->
  HasTicket m t = true ->
  stock m t <= GoInt.max_int ->
  TicketPrices m !! t = None ->
  InsertedMoney m = 0%float ->
  let cs := [CallSelectTicket t; CallInsertMoney 0%float;
             CallDispenseTicket] in
  errs cs m = [nil_error; nil_error; nil_error] /\
  CurrentPrice (run [CallSelectTicket t] m) = 0%float /\
  State (run cs m) = TicketDispensedState /\
  stock (run cs m) t = stock m t - 1.
Proof.
  intros Hs Hhas Hmax Hnone Hzero.
  assert (Hp : GetTicketPrice m t = 0%float).
  { unfold GetTicketPrice, price_at. by rewrite Hnone. }
  assert (Hpay : PrimFloat.leb 0 (InsertedMoney m + 0) = true).
  { rewrite Hzero. reflexivity. }
  destruct (purchase_at m t 0%float Hs Hhas Hmax Hp Hpay)
    as (He & Hprice & Hd & Hst & _).
  cbn zeta. auto.
Qed.

Lemma unpriced_ticket_is_free_witness :
  let m := mkTicketMachine IdleState "" 0%float 0%float
                           (<["tram" := 3]> ∅) (<["bus" := 250%float]> ∅) in
  let cs := [CallSelectTicket "tram"; CallInsertMoney 0%float;
             CallDispenseTicket] in
  HasTicket m "tram" = true /\ TicketPrices m !! "tram" = None /\
  errs cs m = [nil_error; nil_error; nil_error] /\
  stock (run cs m) "tram" = 2.
Proof.
  intros m cs.
  assert (H1 : State m = IdleState) by reflexivity.
  assert (H2 : HasTicket m "tram" = true) by reflexivity.
  assert (H3 : stock m "tram" <= GoInt.max_int) by (vm_compute; discriminate).
  assert (H4 : TicketPrices m !! "tram" = None) by reflexivity.
  assert (H5 : InsertedMoney m = 0%float) by reflexivity.
  destruct (unpriced_ticket_is_free m "tram" H1 H2 H3 H4 H5)
    as (He & _ & _ & Hst).
  split; [exact H2 |]. split; [exact H4 |]. split; [exact He | exact Hst].
Defined.

(** ** Dispensing without a stock check *)




(** ** A payment that is not a number *)

Lemma is_nan_Prim2SF (x : float) :
  PrimFloat.is_nan x = true <-> Prim2SF x = S754_nan.
Proof.
  unfold PrimFloat.is_nan. rewrite FloatAxioms.eqb_spec.
  destruct (Prim2SF x) as [s | s | | s mx ex]; cbn; split;
    try discriminate; try reflexivity.
  - destruct s; discriminate.
  - unfold SFeqb, SFcompare.
    destruct s; rewrite Z.compare_refl, Pos.compare_cont_refl; discriminate.
Qed.

Lemma is_nan_add (x y : float) :
  PrimFloat.is_nan x = true \/ PrimFloat.is_nan y = true ->
  PrimFloat.is_nan (x + y)%float = true.
Proof.
  rewrite !is_nan_Prim2SF, add_spec. unfold SF64add.
  intros [-> | ->]; [reflexivity |].
  destruct (Prim2SF x); reflexivity.
Qed.

Lemma leb_nan (p x : float) :
  PrimFloat.is_nan x = true -> PrimFloat.leb p x = false.
Proof.
  rewrite is_nan_Prim2SF, leb_spec. intros ->.
  unfold SFleb, SFcompare. destruct (Prim2SF p); reflexivity.
Qed.

Lemma waiting_nan_stays (m : TicketMachine) (amounts : list float) :
  State m = WaitingForMoneyState ->
  PrimFloat.is_nan (InsertedMoney m) = true ->
  let cs := map CallInsertMoney amounts in
  Forall (fun e => e = nil_error) (errs cs m) /\
  State (run cs m) = WaitingForMoneyState /\
  PrimFloat.is_nan (InsertedMoney (run cs m)) = true.
Proof.
  cbn zeta. revert m. induction amounts as [| a amounts IH]; intros m Hs Hn.
  { cbn. auto. }
  cbn [map]. rewrite run_cons. unfold errs. rewrite log_cons. cbn [map snd].
  assert (Hnan : PrimFloat.is_nan (InsertedMoney m + a)%float = true)
    by (apply is_nan_add; auto).
  assert (Hstep : call (CallInsertMoney a) m
                  = mkOutcome (set_InsertedMoney m (InsertedMoney m + a)%float)
                              nil_error
                              [InsertedLine a (InsertedMoney m + a)%float]).
  { by_state m; try discriminate. by rewrite (leb_nan _ _ Hnan). }
  rewrite Hstep. cbn [machine err].
  destruct (IH (set_InsertedMoney m (InsertedMoney m + a)%float))
    as (IHe & IHs & IHn); [exact Hs | exact Hnan |].
  split; [constructor; [reflexivity | exact IHe] | auto].
Qed.

(** [InsertMoney] takes a NaN, and one NaN jams the payment: after it is
    inserted in [WaitingForMoneyState] the total is NaN, [>=] is false for
    every price, and no amounts inserted afterwards ever bring the machine
    to [MoneyReceivedState], although every one of these calls returns
    [nil]. *)
Theorem nan_jams_payment (m : TicketMachine) (a : float) (amounts : list float) :
  State m = WaitingForMoneyState ->
  PrimFloat.is_nan a = true ->
  let cs := map CallInsertMoney (a :: amounts) in
  Forall (fun e => e = nil_error) (errs cs m) /\
  State (run cs m) = WaitingForMoneyState /\
  PrimFloat.is_nan (InsertedMoney (run cs m)) = true /\
  err (DispenseTicket (run cs m)) = Some ErrorKind.InsufficientFunds.
Proof.
  intros Hs Ha. cbn zeta. cbn [map]. rewrite run_cons.
  unfold errs. rewrite log_cons. cbn [map snd].
  assert (Hnan : PrimFloat.is_nan (InsertedMoney m + a)%float = true)
    by (apply is_nan_add; auto).
  assert (Hstep : call (CallInsertMoney a) m
                  = mkOutcome (set_InsertedMoney m (InsertedMoney m + a)%float)
                              nil_error
                              [InsertedLine a (InsertedMoney m + a)%float]).
  { by_state m; try discriminate. by rewrite (leb_nan _ _ Hnan). }
  rewrite Hstep. cbn [machine err].
  destruct (waiting_nan_stays
              (set_InsertedMoney m (InsertedMoney m + a)%float) amounts Hs Hnan)
    as (He & Hst & Hn).
  split; [constructor; [reflexivity | exact He] |].
  split; [exact Hst |]. split; [exact Hn |].
  revert Hst. generalize (run (map CallInsertMoney amounts)
    (set_InsertedMoney m (InsertedMoney m + a)%float)) as m'.
  intros m' Hst. by_state m'; try discriminate. reflexivity.
Qed.

Lemma nan_jams_payment_witness :
  let m := run [CallSelectTicket "metro"] NewTicketMachine in
  let cs := map CallInsertMoney [PrimFloat.nan; 300%float; PrimFloat.infinity] in
  State m = WaitingForMoneyState /\
  PrimFloat.is_nan PrimFloat.nan = true /\
  State (run cs m) = WaitingForMoneyState.
Proof.
  intros m cs.
  assert (Hs : State m = WaitingForMoneyState) by reflexivity.
  assert (Hn : PrimFloat.is_nan PrimFloat.nan = true) by reflexivity.
  split; [exact Hs |]. split; [exact Hn |].
  exact (proj1 (proj2 (nan_jams_payment m PrimFloat.nan
                         [300%float; PrimFloat.infinity] Hs Hn))).
Defined.

(** ** The demo driver *)

(** [main] drops the error of each of the eight calls it makes, and none
    of them is an error.  It prints the three headings, the lines of the
    accepted calls, and "TransactionCanceled" as the state after each of
    the two cancellations; the second and third scenario start from a new
    machine, so the ticket dispensed in the first is back in their
    inventory. *)
Theorem main_runs_clean :
  d_dropped main = repeat nil_error 8 /\
  d_stdout main
  = [Println "--- Successful Purchase ---";
     ByMethod (TicketSelectedLine "metro" 300%float);
     ByMethod (InsertedLine 300%float 300%float);
     ByMethod SufficientFundsLine;
     ByMethod TicketDispensedLine;
     Println (after_newline "--- Cancellation Before Payment ---");
     ByMethod (TicketSelectedLine "bus" 250%float);
     StateIs "TransactionCanceled";
     Println (after_newline "--- Cancellation After Payment ---");
     ByMethod (TicketSelectedLine "train" 1000%float);
     ByMethod (InsertedLine 1000%float 1000%float);
     ByMethod SufficientFundsLine;
     StateIs "TransactionCanceled"] /\
  stock (d_machine main) "metro" = 10.
Proof. vm_compute. repeat split. Qed.

(** ** Error texts *)

(** The text of an error tells which method was called and in which state:
    two calls that fail with the same text are calls of the same method,
    on machines in the same state, except that "ticket already selected"
    is what [SelectTicket] returns both in [WaitingForMoneyState] and in
    [MoneyReceivedState]. *)
Theorem error_text_identifies (m1 m2 : TicketMachine) (c1 c2 : Call)
    (msg : string) :
  err (call c1 m1) = Some msg ->
  err (call c2 m2) = Some msg ->
  match c1, c2 with
  | CallSelectTicket _, CallSelectTicket _
  | CallInsertMoney _, CallInsertMoney _
  | CallCancel, CallCancel
  | CallDispenseTicket, CallDispenseTicket => True
  | _, _ => False
  end /\
  (State m1 = State m2 \/
   (msg = ErrorKind.AlreadySelected /\
    stage (State m1) <> 0%nat /\ stage (State m1) <> 3%nat /\
    stage (State m2) <> 0%nat /\ stage (State m2) <> 3%nat)).
Proof.
  intros H1 H2.
  destruct c1; by_state m1;
    try match type of H1 with
        | context [if ?b then _ else _] => destruct b; cbn in H1
        end;
    try discriminate; injection H1 as <-;
    destruct c2; by_state m2;
    try match type of H2 with
        | context [if ?b then _ else _] => destruct b; cbn in H2
        end;
    try discriminate;
    (split; [exact I |]); auto;
    right; repeat split; discriminate.
Qed.

Lemma error_text_identifies_witness :
  let m1 := run [CallSelectTicket "bus"] NewTicketMachine in
  let m2 := run [CallSelectTicket "metro"; CallInsertMoney 300%float]
                NewTicketMachine in
  err (call (CallSelectTicket "train") m1) = Some "ticket already selected" /\
  err (call (CallSelectTicket "bus") m2) = Some "ticket already selected" /\
  (State m1 = State m2 \/
   ("ticket already selected" = ErrorKind.AlreadySelected /\
    stage (State m1) <> 0%nat /\ stage (State m1) <> 3%nat /\
    stage (State m2) <> 0%nat /\ stage (State m2) <> 3%nat)).
Proof.
  intros m1 m2.
  assert (H1 : err (call (CallSelectTicket "train") m1)
               = Some "ticket already selected") by reflexivity.
  assert (H2 : err (call (CallSelectTicket "bus") m2)
               = Some "ticket already selected") by reflexivity.
  split; [exact H1 |]. split; [exact H2 |].
  exact (proj2 (error_text_identifies m1 m2 _ _ _ H1 H2)).
Defined.
